(** * backend-twitter-clone: the five Express handlers over a MongoDB store

    The program is one file of Express route handlers.  Each handler
    validates the request with a Joi schema, makes one or two calls on the
    process-wide collection handles [usersCollection] and [tweetsCollection],
    and maps the outcome to a status code and a body.

    What is modelled, and how:
    - BSON documents are finite maps from field names to values
      ([gmap string value]); the values are the scalar ones (null, booleans,
      integral numbers, strings, object ids).  Documents holding arrays or
      embedded documents are outside the model.
    - A JavaScript expression that may be [undefined] has type
      [option value], [None] standing for [undefined].
    - A collection is the list of its documents in natural (insertion) order,
      which is the order [find().toArray()] returns them in.
    - Handlers are written in a state-and-exception monad over the two
      collections; [try_catch] is the handlers' [try { } catch { }].
    - The driver is taken to be connected: the calls of the model raise only
      what the data can cause (a malformed id string, a duplicate [_id]).
    - [req.body] is what [express.json()] leaves there in Express 4: the
      parsed object or array, the empty object when there was none.
    - Two library functions are parameters: Joi's URI test and the
      [ObjectId] constructor on strings. *)

From stdpp Require Import gmap strings list fin_maps.

Open Scope string_scope.
Open Scope list_scope.
Open Scope nat_scope.

(** ** Values and documents *)

(** The twelve bytes of an [ObjectId], as a number. *)
Definition ObjectId := N.

Inductive value : Type :=
  | VNull
  | VBool (b : bool)
  | VNum (n : Z)
  | VStr (s : string)
  | VOid (o : ObjectId).

#[global] Instance value_eq_dec : EqDecision value.
Proof. solve_decision. Defined.

Abbreviation document := (gmap string value).

(** [d.k] in JavaScript: [undefined] when the field is absent. *)
Definition prop (d : document) (k : string) : option value := d !! k.

(** [user?.k]: [undefined] when [user] is [null]. *)
Definition opt_prop (d : option document) (k : string) : option value :=
  match d with
  | Some d' => prop d' k
  | None => None
  end.

(** JavaScript truthiness, as [if (x)], [!x] and [x || y] use it. *)
Definition truthy (v : option value) : bool :=
  match v with
  | None => false
  | Some VNull => false
  | Some (VBool b) => b
  | Some (VNum n) => negb (n =? 0)%Z
  | Some (VStr s) => negb (bool_decide (s = ""))
  | Some (VOid _) => true
  end.

(** [a || b]. *)
Definition js_or (a b : option value) : option value :=
  if truthy a then a else b.

(** ** The store *)

Record db : Type := mkDb {
  users : list document;
  tweets : list document;
}.

Inductive collection : Type := usersCollection | tweetsCollection.

Definition docs (c : collection) (s : db) : list document :=
  match c with
  | usersCollection => users s
  | tweetsCollection => tweets s
  end.

Definition set_docs (c : collection) (l : list document) (s : db) : db :=
  match c with
  | usersCollection => mkDb l (tweets s)
  | tweetsCollection => mkDb (users s) l
  end.

(** The filter [{k: q}].  The driver serialises an [undefined] query value as
    null, and a null query matches a document whose field is null or
    absent.  Any other scalar matches the field holding that same value. *)
Definition matches (k : string) (q : option value) (d : document) : bool :=
  match q with
  | None | Some VNull =>
      match d !! k with
      | None | Some VNull => true
      | Some _ => false
      end
  | Some v => bool_decide (d !! k = Some v)
  end.
Arguments matches : simpl never.

(** ** The handler monad: the store as state, JavaScript exceptions *)

Inductive exn : Type :=
  | BSONError          (* [new ObjectId(s)] on a malformed string *)
  | MongoServerError.  (* E11000: duplicate key on the [_id] index *)

Inductive outcome (A : Type) : Type :=
  | Return (a : A)
  | Throw (e : exn).
Arguments Return {A} a.
Arguments Throw {A} e.

Definition M (A : Type) : Type := db → outcome A * db.

Definition ret {A} (a : A) : M A := λ s, (Return a, s).

Definition throw {A} (e : exn) : M A := λ s, (Throw e, s).

Definition bind {A B} (m : M A) (k : A → M B) : M B :=
  λ s, match m s with
       | (Return a, s') => k a s'
       | (Throw e, s') => (Throw e, s')
       end.

Definition try_catch {A} (m : M A) (h : exn → M A) : M A :=
  λ s, match m s with
       | (Return a, s') => (Return a, s')
       | (Throw e, s') => h e s'
       end.

Notation "'await' x ← m ; k" := (bind m (λ x, k))
  (at level 10, x name, m at level 100, k at level 200,
   format "'[v' 'await'  x  ←  m ; '/' k ']'").
Notation "'wait' m ; k" := (bind m (λ _, k))
  (at level 10, m at level 100, k at level 200,
   format "'[v' 'wait'  m ; '/' k ']'").

(** ** The driver calls the handlers make *)

(** [c.findOne({k: q})]: the first matching document, or null. *)
Definition findOne (c : collection) (k : string) (q : option value)
  : M (option document) :=
  λ s, (Return (find (matches k q) (docs c s)), s).

(** [c.find().toArray()]. *)
Definition find_toArray (c : collection) : M (list document) :=
  λ s, (Return (docs c s), s).

(** [c.insertOne(d)] for a [d] without [_id]: the driver adds a generated
    [_id] (here [fresh], supplied with the request) and the server appends
    the document, unless the [_id] index already holds that id. *)
Definition insertOne (c : collection) (fresh : ObjectId) (d : document)
  : M unit :=
  λ s, if existsb (matches "_id" (Some (VOid fresh))) (docs c s)
       then (Throw MongoServerError, s)
       else (Return tt,
             set_docs c (docs c s ++ [<["_id" := VOid fresh]> d]) s).

(** The first document satisfying [p] is replaced by its image under [f];
    the result also tells how many documents changed (0 or 1). *)
Fixpoint update_first (p : document → bool) (f : document → document)
    (l : list document) : list document * nat :=
  match l with
  | [] => ([], 0)
  | d :: l' =>
      if p d
      then (f d :: l', if decide (f d = d) then 0 else 1)
      else let '(r, n) := update_first p f l' in (d :: r, n)
  end.

(** [c.updateOne({k: q}, {$set: {field: v}})], returning [modifiedCount]:
    the server counts a document only when the update changed it. *)
Definition updateOne_set (c : collection) (k : string) (q : option value)
    (field : string) (v : value) : M nat :=
  λ s, let '(l, n) := update_first (matches k q) (<[field := v]>) (docs c s) in
       (Return n, set_docs c l s).

Fixpoint remove_first (p : document → bool) (l : list document)
  : list document :=
  match l with
  | [] => []
  | d :: l' => if p d then l' else d :: remove_first p l'
  end.

(** [c.deleteOne({k: q})]: the first matching document goes. *)
Definition deleteOne (c : collection) (k : string) (q : option value)
  : M unit :=
  λ s, (Return tt, set_docs c (remove_first (matches k q) (docs c s)) s).

(** ** Request bodies and the Joi schemas *)

(** A parsed JSON value.  Numbers carry their integral part only: no handler
    looks inside a number. *)
#[local] Unset Elimination Schemes.
Inductive json : Type :=
  | JNull
  | JBool (b : bool)
  | JNum (n : Z)
  | JStr (s : string)
  | JArr (items : list json)
  | JObj (fields : list (string * json)).
#[local] Set Elimination Schemes.

(** [req.body] after [express.json()]: an object (the empty one when the
    request carried no JSON) or an array.  An object is the list of its own
    properties in key order. *)
Inductive body : Type :=
  | BObject (fields : list (string * json))
  | BArray (items : list json).

Fixpoint assoc (k : string) (o : list (string * json)) : option json :=
  match o with
  | [] => None
  | (k', v) :: o' => if decide (k' = k) then Some v else assoc k o'
  end.

(** [req.body.k]. *)
Definition field (b : body) (k : string) : option json :=
  match b with
  | BObject o => assoc k o
  | BArray _ => None
  end.

(** The string a destructured field holds.  The handlers destructure only
    after validation, when the field is a string ([validate_ok_field]). *)
Definition get_string (b : body) (k : string) : string :=
  match field b k with
  | Some (JStr s) => s
  | _ => ""
  end.

(** The two kinds of key the schemas use. *)
Inductive key_schema : Type :=
  | string_required       (* Joi.string().required() *)
  | string_uri_required.  (* Joi.string().uri().required() *)

Definition schema := list (string * key_schema).

Definition userSchema : schema :=
  [("username", string_required); ("avatar", string_uri_required)].

Definition tweetSchema : schema :=
  [("username", string_required); ("tweet", string_required)].

(** Joi's error codes, with the key they are about;
    [error.details[0].message] is the message of the first one. *)
Inductive joi_error : Type :=
  | object_base                  (* "value" must be of type object *)
  | any_required (k : string)    (* "k" is required *)
  | string_base (k : string)     (* "k" must be a string *)
  | string_empty (k : string)    (* "k" is not allowed to be empty *)
  | string_uri (k : string)      (* "k" must be a valid uri *)
  | object_unknown (k : string). (* "k" is not allowed *)

Inductive payload : Type :=
  | Text (s : string)
  | Message (e : joi_error)
  | Json (entries : list (gmap string (option value)))
  | NoBody.

Record response : Type := mkResponse {
  status : nat;
  sent : payload;
}.

(** ** Instances of the two library parameters

    The routes below take Joi's URI test and the [ObjectId] constructor as
    parameters.  These two instances are used to run the routes on concrete
    requests. *)

(** A URI test that accepts the http and https URLs. *)
Definition http_url (s : string) : bool :=
  String.prefix "http://" s || String.prefix "https://" s.

Definition hex_digit (a : Ascii.ascii) : option N :=
  let n := Ascii.N_of_ascii a in
  if (48 <=? n)%N && (n <=? 57)%N then Some (n - 48)%N
  else if (97 <=? n)%N && (n <=? 102)%N then Some (n - 87)%N
  else if (65 <=? n)%N && (n <=? 70)%N then Some (n - 55)%N
  else None.

Fixpoint hex_value (s : string) (acc : N) : option N :=
  match s with
  | EmptyString => Some acc
  | String a s' =>
      match hex_digit a with
      | Some d => hex_value s' (16 * acc + d)%N
      | None => None
      end
  end.

(** The constructor that accepts exactly the strings of 24 hexadecimal
    digits. *)
Definition hex24 (s : string) : option ObjectId :=
  if decide (String.length s = 24) then hex_value s 0%N else None.

(** A store and some requests to run the routes on: one user, one tweet. *)
Definition alice : document :=
  {[ "_id" := VOid 1%N; "username" := VStr "alice";
     "avatar" := VStr "https://x/y.png" ]}.

Definition hello : document :=
  {[ "_id" := VOid 16%N; "username" := VStr "alice"; "tweet" := VStr "hi" ]}.

Definition one_tweet : db := mkDb [alice] [hello].

(** The id of [hello] as a path parameter. *)
Definition hello_id : string := "000000000000000000000010".

Definition tweet_body (username tweet : string) : body :=
  BObject [("username", JStr username); ("tweet", JStr tweet)].

Definition user_body (username avatar : string) : body :=
  BObject [("username", JStr username); ("avatar", JStr avatar)].

(** A user document whose avatar is the empty string, and a tweet of that
    user. *)
Definition faceless : document :=
  {[ "_id" := VOid 2%N; "username" := VStr "bob"; "avatar" := VStr "" ]}.

Definition bob_tweet : document :=
  {[ "_id" := VOid 17%N; "username" := VStr "bob"; "tweet" := VStr "yo" ]}.

(** ** The routes *)

Section Routes.

(** Joi's [uri()] rule: does the string parse as an RFC 3986 URI? *)
Variable is_uri : string → bool.

(** [new ObjectId(s)]: the id a well-formed string denotes; [None] when the
    constructor throws. *)
Variable ObjectId_of_string : string → option ObjectId.

Definition new_ObjectId (s : string) : M ObjectId :=
  match ObjectId_of_string s with
  | Some o => ret o
  | None => throw BSONError
  end.

(** One key against its schema: absent, then the empty string, then the
    type, then the rule. *)
Definition validate_key (k : string) (ks : key_schema) (v : option json)
  : option joi_error :=
  match v with
  | None => Some (any_required k)
  | Some (JStr s) =>
      if decide (s = "") then Some (string_empty k)
      else match ks with
           | string_required => None
           | string_uri_required =>
               if is_uri s then None else Some (string_uri k)
           end
  | Some _ => Some (string_base k)
  end.

(** The schema's keys in their order, stopping at the first error. *)
Fixpoint validate_keys (sch : schema) (o : list (string * json))
  : option joi_error :=
  match sch with
  | [] => None
  | (k, ks) :: sch' =>
      match validate_key k ks (assoc k o) with
      | Some e => Some e
      | None => validate_keys sch' o
      end
  end.

Definition known (sch : schema) (k : string) : bool :=
  bool_decide (k ∈ sch.*1).

(** [schema.validate(req.body)].error: the value must be an object, its
    schema keys must pass, and it may hold no other key. *)
Definition validate (sch : schema) (b : body) : option joi_error :=
  match b with
  | BArray _ => Some object_base
  | BObject o =>
      match validate_keys sch o with
      | Some e => Some e
      | None =>
          match find (λ kv, negb (known sch kv.1)) o with
          | Some kv => Some (object_unknown kv.1)
          | None => None
          end
      end
  end.

(** [Promise.all(l.map(f))]: the results in the order of [l]. *)
Fixpoint Promise_all_map {A B} (f : A → M B) (l : list A) : M (list B) :=
  match l with
  | [] => ret []
  | x :: l' =>
      await y ← f x;
      await ys ← Promise_all_map f l';
      ret (y :: ys)
  end.

Definition send (code : nat) (p : payload) : M response :=
  ret (mkResponse code p).

(** POST /sign-up *)
Definition sign_up (fresh : ObjectId) (b : body) : M response :=
  try_catch
    (match validate userSchema b with
     | Some error => send 422 (Message error)
     | None =>
         let username := get_string b "username" in
         let avatar := get_string b "avatar" in
         await existingUser ←
           findOne usersCollection "username" (Some (VStr username));
         match existingUser with
         | Some _ => send 409 (Text "Username already exists")
         | None =>
             wait insertOne usersCollection fresh
                    {[ "username" := VStr username; "avatar" := VStr avatar ]};
             send 201 (Text "User logged in successfully")
         end
     end)
    (λ _, send 500 (Text "Internal server error")).

(** POST /tweets *)
Definition post_tweets (fresh : ObjectId) (b : body) : M response :=
  try_catch
    (match validate tweetSchema b with
     | Some error => send 422 (Message error)
     | None =>
         let username := get_string b "username" in
         let tweet := get_string b "tweet" in
         await existingUser ←
           findOne usersCollection "username" (Some (VStr username));
         match existingUser with
         | None =>
             send 401
               (Text "Este usuário não está cadastrado! Ação não autorizada.")
         | Some _ =>
             wait insertOne tweetsCollection fresh
                    {[ "username" := VStr username; "tweet" := VStr tweet ]};
             send 201 (Text "Tweet criado com sucesso")
         end
     end)
    (λ _, send 500 (Text "Internal server error")).

(** GET /tweets *)
Definition get_tweets : M response :=
  try_catch
    (await tweets ← find_toArray tweetsCollection;
     await resolvedTweets ←
       Promise_all_map
         (λ tweet,
            await user ←
              findOne usersCollection "username" (prop tweet "username");
            ret ({[ "_id" := prop tweet "_id";
                    "username" := prop tweet "username";
                    "tweet" := prop tweet "tweet";
                    "avatar" := js_or (opt_prop user "avatar") (Some VNull) ]}
                 : gmap string (option value)))
         tweets;
     send 200 (Json (reverse resolvedTweets)))
    (λ _, send 500 (Text "Internal server error")).

(** PUT /tweets/:id *)
Definition put_tweets (id : string) (b : body) : M response :=
  try_catch
    (match validate tweetSchema b with
     | Some error => send 422 (Message error)
     | None =>
         let username := get_string b "username" in
         let tweet := get_string b "tweet" in
         await objectId ← new_ObjectId id;
         await existingTweet ←
           findOne tweetsCollection "_id" (Some (VOid objectId));
         match existingTweet with
         | None => send 404 (Text "Tweet não encontrado")
         | Some existingTweet =>
             if negb (bool_decide
                        (prop existingTweet "username" = Some (VStr username)))
             then
               send 403
                 (Text "Ação não permitida: o username não corresponde ao tweet original")
             else
               await modifiedCount ←
                 updateOne_set tweetsCollection "_id" (Some (VOid objectId))
                   "tweet" (VStr tweet);
               if decide (modifiedCount = 0)
               then send 304 (Text "Nenhuma modificação feita")
               else send 204 NoBody
         end
     end)
    (λ _, send 404 (Text "Este tweet não foi encontrado.")).

(** DELETE /tweets/:id *)
Definition delete_tweets (id : string) : M response :=
  try_catch
    (await objectId ← new_ObjectId id;
     await existingTweet ←
       findOne tweetsCollection "_id" (Some (VOid objectId));
     match existingTweet with
     | None => send 404 (Text "Tweet não encontrado")
     | Some _ =>
         wait deleteOne tweetsCollection "_id" (Some (VOid objectId));
         send 204 NoBody
     end)
    (λ _, send 404 (Text "Tweet não encontrado")).

(** ** The server: one request after the other *)

(** A request as the routes see it; the two inserting routes come with the
    id the driver generates for the new document. *)
Inductive request : Type :=
  | POST_sign_up (fresh : ObjectId) (b : body)
  | POST_tweets (fresh : ObjectId) (b : body)
  | GET_tweets
  | PUT_tweets (id : string) (b : body)
  | DELETE_tweets (id : string).

Definition route (r : request) : M response :=
  match r with
  | POST_sign_up fresh b => sign_up fresh b
  | POST_tweets fresh b => post_tweets fresh b
  | GET_tweets => get_tweets
  | PUT_tweets id b => put_tweets id b
  | DELETE_tweets id => delete_tweets id
  end.

(** What the client receives; an exception escaping a handler would leave
    the request unanswered ([None]). *)
Definition reply {A} (r : outcome A * db) : option A :=
  match r.1 with
  | Return a => Some a
  | Throw _ => None
  end.

(** The store after serving the requests in order. *)
Fixpoint serve (rs : list request) (s : db) : db :=
  match rs with
  | [] => s
  | r :: rs' => serve rs' (route r s).2
  end.


(** ** What the claims say, as predicates on a handler's result *)

(** The handler answered [code] and left the store as it was. *)
Definition answers (code : nat) (s : db) (r : outcome response * db) : Prop :=
  ∃ p, r = (Return (mkResponse code p), s).

(** The object GET /tweets lists for [tweet], given the avatar rule. *)
Definition listed (avatar_of : option document → option value)
    (us : list document) (tweet : document) : gmap string (option value) :=
  {[ "_id" := tweet !! "_id";
     "username" := tweet !! "username";
     "tweet" := tweet !! "tweet";
     "avatar" :=
       avatar_of (find (matches "username" (tweet !! "username")) us) ]}.

(** The result is a 200 with one entry per stored tweet, most recently
    inserted first, each entry built by [listed], and the store as it was. *)
Definition lists_tweets (avatar_of : option document → option value)
    (s : db) (r : outcome response * db) : Prop :=
  ∃ entries,
    r = (Return (mkResponse 200 (Json entries)), s) ∧
    length entries = length (tweets s) ∧
    ∀ i tweet, tweets s !! i = Some tweet →
      entries !! (length (tweets s) - 1 - i)
      = Some (listed avatar_of (users s) tweet).

(** The avatar rule in the words of the specification: the matching user
    document's avatar, null when there is no such document. *)
Definition avatar_as_specified (user : option document) : option value :=
  match user with
  | Some u => u !! "avatar"
  | None => Some VNull
  end.

(** The avatar rule with falsy avatars rendered as null. *)
Definition avatar_or_null (user : option document) : option value :=
  match user with
  | Some u => if truthy (u !! "avatar") then u !! "avatar" else Some VNull
  | None => Some VNull
  end.

(** No two user documents carry the same username string. *)
Definition unique_usernames (s : db) : Prop :=
  ∀ name : string,
    (length (filter (λ d, matches "username" (Some (VStr name)) d = true)
               (users s)) ≤ 1)%nat.

(** The first document of [l] with [_id] equal to [o] is [d], at the end
    of the prefix [l1]. *)
Definition first_with_id (o : ObjectId) (l l1 : list document) (d : document)
    (l2 : list document) : Prop :=
  l = l1 ++ d :: l2 ∧
  d !! "_id" = Some (VOid o) ∧
  ∀ x, x ∈ l1 → x !! "_id" ≠ Some (VOid o).

Definition is_string (v : option json) : Prop :=
  ∃ s, v = Some (JStr s).

(** ** What a request does to the store, and what a store built by
    requests looks like *)

(** The document POST /sign-up inserts. *)
Definition new_user (fresh : ObjectId) (b : body) : document :=
  <["_id" := VOid fresh]>
    {[ "username" := VStr (get_string b "username");
       "avatar" := VStr (get_string b "avatar") ]}.

(** The document POST /tweets inserts. *)
Definition new_tweet (fresh : ObjectId) (b : body) : document :=
  <["_id" := VOid fresh]>
    {[ "username" := VStr (get_string b "username");
       "tweet" := VStr (get_string b "tweet") ]}.

(** The five things a request can do to the store. *)
Inductive changes : request → db → db → Prop :=
  | no_change r s :
      changes r s s
  | user_added fresh b s :
      validate userSchema b = None →
      find (matches "username" (Some (VStr (get_string b "username"))))
        (users s) = None →
      changes (POST_sign_up fresh b) s
        (mkDb (users s ++ [new_user fresh b]) (tweets s))
  | tweet_added fresh b s u :
      validate tweetSchema b = None →
      find (matches "username" (Some (VStr (get_string b "username"))))
        (users s) = Some u →
      changes (POST_tweets fresh b) s
        (mkDb (users s) (tweets s ++ [new_tweet fresh b]))
  | tweet_edited id b s o l1 d l2 :
      validate tweetSchema b = None →
      ObjectId_of_string id = Some o →
      first_with_id o (tweets s) l1 d l2 →
      d !! "username" = Some (VStr (get_string b "username")) →
      changes (PUT_tweets id b) s
        (mkDb (users s)
           (l1 ++ <["tweet" := VStr (get_string b "tweet")]> d :: l2))
  | tweet_deleted id s o l1 d l2 :
      ObjectId_of_string id = Some o →
      first_with_id o (tweets s) l1 d l2 →
      changes (DELETE_tweets id) s (mkDb (users s) (l1 ++ l2)).

(** The status codes each route sends. *)
Definition codes (r : request) : list nat :=
  match r with
  | POST_sign_up _ _ => [422; 409; 201; 500]
  | POST_tweets _ _ => [422; 401; 201; 500]
  | GET_tweets => [200; 500]
  | PUT_tweets _ _ => [422; 404; 403; 304; 204]
  | DELETE_tweets _ => [404; 204]
  end.

(** An object the schema accepts: a non-empty string under every key of
    the schema, a URI where the schema asks for one, and no other key. *)
Definition accepted (sch : schema) (o : list (string * json)) : Prop :=
  (∀ k ks, (k, ks) ∈ sch →
     ∃ str, assoc k o = Some (JStr str) ∧ str ≠ "" ∧
            (ks = string_uri_required → is_uri str = true)) ∧
  (∀ k v, (k, v) ∈ o → k ∈ sch.*1).

(** Every user document holds what a sign-up stores: a string as username
    and a non-empty URI as avatar. *)
Definition signed_up (s : db) : Prop :=
  ∀ u, u ∈ users s →
    ∃ name a, u !! "username" = Some (VStr name) ∧
              u !! "avatar" = Some (VStr a) ∧ a ≠ "" ∧ is_uri a = true.

(** Every tweet carries the username of some user document. *)
Definition authored (s : db) : Prop :=
  ∀ t, t ∈ tweets s →
    ∃ name u, t !! "username" = Some (VStr name) ∧
              u ∈ users s ∧ u !! "username" = Some (VStr name).

(** No two tweets share an [_id], as the server's index on [_id] keeps it. *)
Definition unique_tweet_ids (s : db) : Prop :=
  ∀ o : ObjectId,
    (length (filter (λ d, matches "_id" (Some (VOid o)) d = true)
               (tweets s)) ≤ 1)%nat.

(** The username [name] is taken: some user document carries it. *)
Definition registered (name : string) (s : db) : Prop :=
  is_Some (find (matches "username" (Some (VStr name))) (users s)).

(** ** Lemmas on the driver calls *)

Lemma matches_id (o : ObjectId) (d : document) :
  matches "_id" (Some (VOid o)) d = true ↔ d !! "_id" = Some (VOid o).
Proof. unfold matches. apply bool_decide_eq_true. Qed.

Lemma matches_str (k name : string) (d : document) :
  matches k (Some (VStr name)) d = true ↔ d !! k = Some (VStr name).
Proof. unfold matches. apply bool_decide_eq_true. Qed.

Lemma find_split (p : document → bool) (l : list document) (d : document) :
  find p l = Some d →
  ∃ l1 l2, l = l1 ++ d :: l2 ∧ p d = true ∧ ∀ x, x ∈ l1 → p x = false.
Proof.
  induction l as [|x l IH]; simpl; [done|].
  destruct (p x) eqn:Hx.
  - intros [= ->]. exists [], l. split_and!; [done|done|].
    intros y Hy. by apply elem_of_nil in Hy.
  - intros Hf. destruct (IH Hf) as (l1 & l2 & -> & Hd & Hl1).
    exists (x :: l1), l2. split_and!; [done|done|].
    intros y [->|Hy]%elem_of_cons; auto.
Qed.

Lemma update_first_split (p : document → bool) (f : document → document)
    (l1 l2 : list document) (d : document) :
  p d = true → (∀ x, x ∈ l1 → p x = false) →
  update_first p f (l1 ++ d :: l2)
  = (l1 ++ f d :: l2, if decide (f d = d) then 0 else 1).
Proof.
  intros Hd. induction l1 as [|x l1 IH]; intros Hl1; simpl.
  - by rewrite Hd.
  - rewrite (Hl1 x) by (apply elem_of_cons; auto).
    rewrite IH; [done|]. intros y Hy. apply Hl1, elem_of_cons. auto.
Qed.

Lemma remove_first_split (p : document → bool) (l1 l2 : list document)
    (d : document) :
  p d = true → (∀ x, x ∈ l1 → p x = false) →
  remove_first p (l1 ++ d :: l2) = l1 ++ l2.
Proof.
  intros Hd. induction l1 as [|x l1 IH]; intros Hl1; simpl.
  - by rewrite Hd.
  - rewrite (Hl1 x) by (apply elem_of_cons; auto).
    rewrite IH; [done|]. intros y Hy. apply Hl1, elem_of_cons. auto.
Qed.

Lemma find_first_with_id (o : ObjectId) (l : list document) (d : document) :
  find (matches "_id" (Some (VOid o))) l = Some d →
  ∃ l1 l2, first_with_id o l l1 d l2.
Proof.
  intros (l1 & l2 & -> & Hd & Hl1)%find_split. exists l1, l2.
  split_and!; [done|by apply matches_id|].
  intros x Hx Hid%matches_id. specialize (Hl1 x Hx). congruence.
Qed.

Lemma first_with_id_matches (o : ObjectId) (l l1 l2 : list document)
    (d : document) :
  first_with_id o l l1 d l2 →
  matches "_id" (Some (VOid o)) d = true ∧
  ∀ x, x ∈ l1 → matches "_id" (Some (VOid o)) x = false.
Proof.
  intros (_ & Hd & Hl1). split; [by apply matches_id|].
  intros x Hx. destruct (matches _ _ x) eqn:Hm; [|done].
  apply matches_id in Hm. by destruct (Hl1 x Hx).
Qed.

Lemma find_none_filter (p : document → bool) (l : list document) :
  find p l = None → filter (λ d, p d = true) l = [].
Proof.
  induction l as [|x l IH]; simpl; [done|].
  destruct (p x) eqn:Hx; [done|]. intros Hf.
  rewrite filter_cons_False by congruence. auto.
Qed.

(** ** Lemmas on validation *)

Lemma validate_keys_field (sch : schema) (o : list (string * json))
    (k : string) (ks : key_schema) :
  validate_keys sch o = None → (k, ks) ∈ sch →
  validate_key k ks (assoc k o) = None.
Proof.
  induction sch as [|[k' ks'] sch IH]; simpl.
  - intros _ Hin. by apply elem_of_nil in Hin.
  - destruct (validate_key k' ks' (assoc k' o)) eqn:Hk; [done|].
    intros Hrest [[= -> ->]|Hin]%elem_of_cons; auto.
Qed.

(** A body that validates holds a non-empty string under every key of the
    schema, a URI where the schema asks for one. *)
Lemma validate_ok_field (sch : schema) (b : body) (k : string)
    (ks : key_schema) :
  validate sch b = None → (k, ks) ∈ sch →
  ∃ s, field b k = Some (JStr s) ∧ s ≠ "" ∧ get_string b k = s ∧
       (ks = string_uri_required → is_uri s = true).
Proof.
  destruct b as [o|l]; simpl; [|done].
  destruct (validate_keys sch o) eqn:Hks; [done|]. intros _ Hin.
  pose proof (validate_keys_field _ _ _ _ Hks Hin) as Hk.
  unfold validate_key in Hk. unfold get_string. simpl.
  destruct (assoc k o) as [[| | |s| |]|]; try done.
  destruct (decide (s = "")); [done|]. exists s. split_and!; try done.
  intros ->. by destruct (is_uri s).
Qed.

Lemma validate_user_rejects (b : body) :
  (∃ a, field b "avatar" = Some (JStr a) ∧ is_uri a = false) ∨
  ¬ is_string (field b "username") ∨ ¬ is_string (field b "avatar") →
  ∃ e, validate userSchema b = Some e.
Proof.
  intros Hbad. destruct (validate userSchema b) as [e|] eqn:Hv; [eauto|].
  exfalso.
  destruct (validate_ok_field _ _ "username" string_required Hv)
    as (u & Hu & _); [unfold userSchema; rewrite !elem_of_cons; auto|].
  destruct (validate_ok_field _ _ "avatar" string_uri_required Hv)
    as (a & Ha & _ & _ & Huri); [unfold userSchema; rewrite !elem_of_cons; auto|].
  destruct Hbad as [(a' & Ha' & Hno)|[Hno|Hno]].
  - rewrite Ha in Ha'. injection Ha' as <-. rewrite Huri in Hno; done.
  - apply Hno. by exists u.
  - apply Hno. by exists a.
Qed.

(** ** Running the handlers *)

Ltac run :=
  unfold sign_up, post_tweets, get_tweets, put_tweets, delete_tweets,
    try_catch, bind, findOne, find_toArray, insertOne, updateOne_set,
    deleteOne, new_ObjectId, send, ret, throw;
  simpl.

Lemma js_or_null (user : option document) :
  js_or (opt_prop user "avatar") (Some VNull) = avatar_or_null user.
Proof.
  unfold js_or, opt_prop, prop, avatar_or_null. by destruct user.
Qed.

Lemma Promise_all_map_avatars (l : list document) (s : db) :
  Promise_all_map
    (λ tweet,
       await user ← findOne usersCollection "username" (prop tweet "username");
       ret ({[ "_id" := prop tweet "_id";
               "username" := prop tweet "username";
               "tweet" := prop tweet "tweet";
               "avatar" := js_or (opt_prop user "avatar") (Some VNull) ]}
            : gmap string (option value)))
    l s
  = (Return (listed avatar_or_null (users s) <$> l), s).
Proof.
  induction l as [|tweet l IH]; [done|].
  simpl. unfold bind at 1. unfold bind at 1. unfold findOne at 1. simpl.
  unfold bind at 1. rewrite IH. unfold ret. simpl.
  by rewrite js_or_null.
Qed.

Lemma get_tweets_runs (s : db) :
  get_tweets s
  = (Return (mkResponse 200
       (Json (reverse (listed avatar_or_null (users s) <$> tweets s)))), s).
Proof.
  unfold get_tweets, try_catch, find_toArray. unfold bind at 1. simpl.
  unfold bind at 1. by rewrite Promise_all_map_avatars.
Qed.

Lemma listing_lookup (avatar_of : option document → option value)
    (us l : list document) (i : nat) (tweet : document) :
  l !! i = Some tweet →
  reverse (listed avatar_of us <$> l) !! (length l - 1 - i)
  = Some (listed avatar_of us tweet).
Proof.
  intros Hi. pose proof (lookup_lt_Some _ _ _ Hi) as Hlt.
  rewrite reverse_lookup by (rewrite length_fmap; lia).
  rewrite length_fmap, list_lookup_fmap.
  replace (length l - S (length l - 1 - i)) with i by lia.
  by rewrite Hi.
Qed.

Lemma tweet_body_strings (b : body) :
  validate tweetSchema b = None →
  field b "username" = Some (JStr (get_string b "username")) ∧
  field b "tweet" = Some (JStr (get_string b "tweet")).
Proof.
  intros Hv.
  destruct (validate_ok_field _ _ "username" string_required Hv)
    as (u & Hu & _ & <- & _); [unfold tweetSchema; rewrite !elem_of_cons; auto|].
  destruct (validate_ok_field _ _ "tweet" string_required Hv)
    as (t & Ht & _ & <- & _); [unfold tweetSchema; rewrite !elem_of_cons; auto|].
  done.
Qed.

(** PUT /tweets/:id once the body validates, the id parses and the tweet
    is there: the ownership test, the update, the count. *)
Lemma put_tweets_found (s : db) (id : string) (o : ObjectId) (b : body)
    (l1 l2 : list document) (d : document) :
  validate tweetSchema b = None →
  ObjectId_of_string id = Some o →
  first_with_id o (tweets s) l1 d l2 →
  put_tweets id b s
  = if decide (d !! "username" = Some (VStr (get_string b "username")))
    then
      if decide (d !! "tweet" = Some (VStr (get_string b "tweet")))
      then (Return (mkResponse 304 (Text "Nenhuma modificação feita")), s)
      else (Return (mkResponse 204 NoBody),
            mkDb (users s)
              (l1 ++ <["tweet" := VStr (get_string b "tweet")]> d :: l2))
    else
      (Return (mkResponse 403
         (Text "Ação não permitida: o username não corresponde ao tweet original")),
       s).
Proof.
  intros Hv Hid Hfirst.
  destruct (first_with_id_matches _ _ _ _ _ Hfirst) as [Hd Hl1].
  destruct Hfirst as (Htw & _ & _).
  assert (find (matches "_id" (Some (VOid o))) (tweets s) = Some d) as Hfind.
  { rewrite Htw. clear Htw. induction l1 as [|x l1 IH]; simpl.
    - by rewrite Hd.
    - rewrite (Hl1 x) by (apply elem_of_cons; auto).
      apply IH. intros y Hy. apply Hl1, elem_of_cons. auto. }
  run. rewrite Hv, Hid. simpl. rewrite Hfind. unfold prop.
  destruct (decide (d !! "username" = Some (VStr (get_string b "username"))))
    as [Hu|Hu].
  - rewrite bool_decide_eq_true_2 by done. simpl.
    rewrite Htw, (update_first_split _ _ _ _ _ Hd Hl1).
    destruct (decide (<["tweet" := VStr (get_string b "tweet")]> d = d))
      as [Heq|Hne];
      destruct (decide (d !! "tweet" = Some (VStr (get_string b "tweet"))))
        as [Ht|Ht]; simpl.
    + rewrite Heq, <- Htw. by destruct s.
    + destruct Ht. rewrite <- Heq. apply lookup_insert_eq.
    + destruct Hne. by apply insert_id.
    + done.
  - by rewrite bool_decide_eq_false_2 by done.
Qed.

(** Only a sign-up that finds no user with the body's username touches the
    users collection, and it appends one document with that username. *)
Lemma route_users (r : request) (s : db) :
  users (route r s).2 = users s ∨
  ∃ fresh b,
    r = POST_sign_up fresh b ∧
    find (matches "username" (Some (VStr (get_string b "username"))))
      (users s) = None ∧
    users (route r s).2
    = users s ++ [<["_id" := VOid fresh]>
                    {[ "username" := VStr (get_string b "username");
                       "avatar" := VStr (get_string b "avatar") ]}].
Proof.
  destruct r as [fresh b|fresh b| |id b|id]; simpl.
  - run. destruct (validate userSchema b); simpl; [by left|].
    destruct (find _ (users s)) eqn:Hfind; simpl; [by left|].
    destruct (existsb _ (users s)); simpl; [by left|].
    right. by exists fresh, b.
  - left. run. destruct (validate tweetSchema b); simpl; [done|].
    destruct (find _ (users s)); simpl; [|done].
    by destruct (existsb _ (tweets s)).
  - left. by rewrite get_tweets_runs.
  - left. run. destruct (validate tweetSchema b); simpl; [done|].
    destruct (ObjectId_of_string id); simpl; [|done].
    destruct (find _ (tweets s)); simpl; [|done].
    destruct (bool_decide _); simpl; [|done].
    destruct (update_first _ _ (tweets s)) as [l n]; simpl.
    by destruct (decide (n = 0)).
  - left. run. destruct (ObjectId_of_string id); simpl; [|done].
    by destruct (find _ (tweets s)).
Qed.

Lemma route_unique (r : request) (s : db) :
  unique_usernames s → unique_usernames (route r s).2.
Proof.
  intros Hs name.
  destruct (route_users r s) as [->|(fresh & b & _ & Hfind & ->)]; [apply Hs|].
  rewrite filter_app, length_app.
  destruct (decide (name = get_string b "username")) as [->|Hne].
  - rewrite (find_none_filter _ _ Hfind). simpl.
    etrans; [apply length_filter|done].
  - rewrite filter_cons_False, filter_nil.
    + specialize (Hs name). simpl. lia.
    + rewrite matches_str, lookup_insert_ne, lookup_insert_eq by done.
      congruence.
Qed.

Lemma serve_unique (rs : list request) (s : db) :
  unique_usernames s → unique_usernames (serve rs s).
Proof.
  revert s. induction rs as [|r rs IH]; intros s Hs; simpl; [done|].
  by apply IH, route_unique.
Qed.

(** ** The handlers path by path *)

Lemma existsb_id_false (fresh : ObjectId) (l : list document) :
  (∀ d, d ∈ l → d !! "_id" ≠ Some (VOid fresh)) →
  existsb (matches "_id" (Some (VOid fresh))) l = false.
Proof.
  induction l as [|x l IH]; intros Hl; simpl; [done|].
  rewrite IH by (intros d Hd; apply Hl, elem_of_cons; auto).
  destruct (matches "_id" (Some (VOid fresh)) x) eqn:Hx; [|done].
  apply matches_id in Hx. destruct (Hl x); [apply elem_of_cons; auto|done].
Qed.

Lemma sign_up_runs (fresh : ObjectId) (b : body) (s : db) :
  sign_up fresh b s
  = match validate userSchema b with
    | Some e => (Return (mkResponse 422 (Message e)), s)
    | None =>
        match find (matches "username" (Some (VStr (get_string b "username"))))
                (users s) with
        | Some _ => (Return (mkResponse 409 (Text "Username already exists")), s)
        | None =>
            if existsb (matches "_id" (Some (VOid fresh))) (users s)
            then (Return (mkResponse 500 (Text "Internal server error")), s)
            else (Return (mkResponse 201 (Text "User logged in successfully")),
                  mkDb (users s ++ [new_user fresh b]) (tweets s))
        end
    end.
Proof.
  run. destruct (validate userSchema b); simpl; [done|].
  destruct (find _ (users s)); simpl; [done|].
  by destruct (existsb _ (users s)).
Qed.

Lemma post_tweets_runs (fresh : ObjectId) (b : body) (s : db) :
  post_tweets fresh b s
  = match validate tweetSchema b with
    | Some e => (Return (mkResponse 422 (Message e)), s)
    | None =>
        match find (matches "username" (Some (VStr (get_string b "username"))))
                (users s) with
        | None =>
            (Return (mkResponse 401
               (Text "Este usuário não está cadastrado! Ação não autorizada.")),
             s)
        | Some _ =>
            if existsb (matches "_id" (Some (VOid fresh))) (tweets s)
            then (Return (mkResponse 500 (Text "Internal server error")), s)
            else (Return (mkResponse 201 (Text "Tweet criado com sucesso")),
                  mkDb (users s) (tweets s ++ [new_tweet fresh b]))
        end
    end.
Proof.
  run. destruct (validate tweetSchema b); simpl; [done|].
  destruct (find _ (users s)); simpl; [|done].
  by destruct (existsb _ (tweets s)).
Qed.

Lemma put_tweets_early (id : string) (b : body) (s : db) :
  validate tweetSchema b ≠ None ∨ ObjectId_of_string id = None ∨
  (∃ o, ObjectId_of_string id = Some o ∧
        find (matches "_id" (Some (VOid o))) (tweets s) = None) →
  ∃ code p, put_tweets id b s = (Return (mkResponse code p), s) ∧
            (code = 422 ∨ code = 404).
Proof.
  intros Hearly. run. destruct (validate tweetSchema b) as [e|]; simpl.
  { eexists _, _. split; [done|auto]. }
  destruct Hearly as [?|[Hid|(o & Hid & Hfind)]]; [done|..];
    rewrite Hid; simpl; rewrite ?Hfind; eexists _, _; (split; [done|auto]).
Qed.

Lemma delete_tweets_runs (id : string) (s : db) :
  delete_tweets id s
  = match ObjectId_of_string id with
    | None => (Return (mkResponse 404 (Text "Tweet não encontrado")), s)
    | Some o =>
        match find (matches "_id" (Some (VOid o))) (tweets s) with
        | None => (Return (mkResponse 404 (Text "Tweet não encontrado")), s)
        | Some _ =>
            (Return (mkResponse 204 NoBody),
             mkDb (users s)
               (remove_first (matches "_id" (Some (VOid o))) (tweets s)))
        end
    end.
Proof.
  run. destruct (ObjectId_of_string id); simpl; [|done].
  by destruct (find _ (tweets s)).
Qed.

(** What each request sends and does: a code of its route, one of the five
    changes, and no change at all unless the code is 201 or 204. *)
Lemma route_outcome (r : request) (s : db) :
  ∃ resp,
    route r s = (Return resp, (route r s).2) ∧
    status resp ∈ codes r ∧
    changes r s (route r s).2 ∧
    (status resp ≠ 201 → status resp ≠ 204 → (route r s).2 = s).
Proof.
  destruct r as [fresh b|fresh b| |id b|id]; simpl.
  - rewrite sign_up_runs.
    destruct (validate userSchema b) eqn:Hv;
      [|destruct (find _ (users s)) eqn:Hfind;
        [|destruct (existsb _ (users s))]];
      eexists; (split_and!; [done|rewrite !elem_of_cons; auto 6| |simpl; done]);
      simpl; first [apply no_change|by apply user_added].
  - rewrite post_tweets_runs.
    destruct (validate tweetSchema b) eqn:Hv;
      [|destruct (find _ (users s)) eqn:Hfind;
        [destruct (existsb _ (tweets s))|]];
      eexists; (split_and!; [done|rewrite !elem_of_cons; auto 6| |simpl; done]);
      simpl; first [apply no_change|by eapply tweet_added].
  - rewrite get_tweets_runs. eexists.
    split_and!; [done|rewrite !elem_of_cons; auto|apply no_change|done].
  - destruct (validate tweetSchema b) as [e|] eqn:Hv;
      [|destruct (ObjectId_of_string id) as [o|] eqn:Hid;
        [destruct (find (matches "_id" (Some (VOid o))) (tweets s))
           as [d|] eqn:Hfind|]].
    2: {
      destruct (find_first_with_id _ _ _ Hfind) as (l1 & l2 & Hfirst).
      rewrite (put_tweets_found _ _ _ _ _ _ _ Hv Hid Hfirst).
      repeat case_decide; eexists;
        (split_and!; [done|rewrite !elem_of_cons; auto 7| |simpl; done]);
        simpl; first [by eapply tweet_edited|apply no_change]. }
    all: destruct (put_tweets_early id b s) as (code & p & -> & Hcode);
      [first [by left; rewrite Hv|by right; left|by right; right; exists o]|];
      eexists; (split_and!; [done| |apply no_change|done]);
      simpl; rewrite !elem_of_cons; destruct Hcode as [->| ->]; auto.
  - rewrite delete_tweets_runs.
    destruct (ObjectId_of_string id) as [o|] eqn:Hid;
      [destruct (find (matches "_id" (Some (VOid o))) (tweets s))
         as [d|] eqn:Hfind|].
    1: {
      destruct (find_first_with_id _ _ _ Hfind) as (l1 & l2 & Hfirst).
      destruct (first_with_id_matches _ _ _ _ _ Hfirst) as [Hd Hl1].
      pose proof Hfirst as (Htw & _ & _).
      eexists. split_and!; [done|rewrite !elem_of_cons; auto| |simpl; done].
      simpl. rewrite Htw, (remove_first_split _ _ _ _ Hd Hl1).
      by eapply tweet_deleted. }
    all: eexists;
      (split_and!; [done|rewrite !elem_of_cons; auto|apply no_change|done]).
Qed.

(** ** What the five changes keep *)

Lemma serve_keeps (P : db → Prop) :
  (∀ r s, P s → P (route r s).2) → ∀ rs s, P s → P (serve rs s).
Proof.
  intros Hstep rs. induction rs as [|r rs IH]; intros s Hs; simpl; [done|].
  by apply IH, Hstep.
Qed.

Lemma route_changes (r : request) (s : db) : changes r s (route r s).2.
Proof. by destruct (route_outcome r s) as (resp & _ & _ & Hch & _). Qed.

Lemma find_app_Some (p : document → bool) (l k : list document)
    (d : document) :
  find p l = Some d → find p (l ++ k) = Some d.
Proof.
  induction l as [|x l IH]; simpl; [done|]. by destruct (p x).
Qed.

Lemma find_elem_Some (p : document → bool) (l : list document) (x : document) :
  x ∈ l → p x = true → ∃ d, find p l = Some d ∧ d ∈ l ∧ p d = true.
Proof.
  induction l as [|y l IH]; [by intros ?%elem_of_nil|].
  intros Hx Hp. simpl. destruct (p y) eqn:Hy.
  - exists y. split_and!; [done|apply elem_of_cons; auto|done].
  - apply elem_of_cons in Hx as [->|Hx]; [congruence|].
    destruct (IH Hx Hp) as (d & Hd & Hin & Hpd). exists d.
    split_and!; [done|apply elem_of_cons; auto|done].
Qed.

Lemma find_all_false {A} (p : A → bool) (l : list A) :
  (∀ x, x ∈ l → p x = false) → find p l = None.
Proof.
  induction l as [|y l IH]; intros Hl; simpl; [done|].
  rewrite (Hl y) by (apply elem_of_cons; auto).
  apply IH. intros x Hx. apply Hl, elem_of_cons. auto.
Qed.

Lemma changes_users (r : request) (s s' : db) :
  changes r s s' → users s `prefix_of` users s'.
Proof.
  intros Hch. destruct Hch; simpl; try done.
  by apply prefix_app_r.
Qed.

Lemma changes_registered (name : string) (r : request) (s s' : db) :
  changes r s s' → registered name s → registered name s'.
Proof.
  intros [k Hk]%changes_users [u Hu]. exists u.
  rewrite Hk. by apply find_app_Some.
Qed.

Lemma new_user_fields (fresh : ObjectId) (b : body) :
  validate userSchema b = None →
  ∃ name a, new_user fresh b !! "username" = Some (VStr name) ∧
            new_user fresh b !! "avatar" = Some (VStr a) ∧
            a ≠ "" ∧ is_uri a = true.
Proof.
  intros Hv.
  destruct (validate_ok_field _ _ "avatar" string_uri_required Hv)
    as (a & _ & Ha & Hget & Huri); [unfold userSchema; rewrite !elem_of_cons; auto|].
  exists (get_string b "username"), a. unfold new_user. rewrite Hget.
  split_and!; [done|done|done|by apply Huri].
Qed.

Lemma changes_signed_up (r : request) (s s' : db) :
  changes r s s' → signed_up s → signed_up s'.
Proof.
  intros Hch Hs. destruct Hch; try done.
  intros u [Hu|Hu%list_elem_of_singleton]%elem_of_app; [by apply Hs|].
  subst u. by apply new_user_fields.
Qed.

Lemma changes_authored (r : request) (s s' : db) :
  changes r s s' → authored s → authored s'.
Proof.
  intros Hch Hs. destruct Hch as [| |fresh b s u Hv Hfind
    |id b s o l1 d l2 Hv Hid (Htw & Hd & Hl1) Hu|id s o l1 d l2 Hid (Htw & _)].
  - done.
  - intros t Ht. destruct (Hs t Ht) as (name & u & Hname & Hin & Hu).
    exists name, u. split_and!; [done|apply elem_of_app; auto|done].
  - intros t [Ht|Ht%list_elem_of_singleton]%elem_of_app; [by apply Hs|].
    subst t. apply find_some in Hfind as [Hin Hm].
    exists (get_string b "username"), u.
    split_and!; [done|by apply list_elem_of_In|by apply matches_str].
  - intros t Ht. simpl in *.
    apply elem_of_app in Ht as [Ht|[->|Ht]%elem_of_cons].
    + apply Hs. rewrite Htw. apply elem_of_app. auto.
    + destruct (Hs d) as (name & u & Hname & Hin & Hu');
        [rewrite Htw; apply elem_of_app; right; apply elem_of_cons; auto|].
      exists name, u. by rewrite lookup_insert_ne.
    + apply Hs. rewrite Htw. apply elem_of_app. right. apply elem_of_cons.
      auto.
  - intros t Ht. simpl in *. apply Hs. rewrite Htw.
    apply elem_of_app in Ht as [Ht|Ht]; apply elem_of_app;
      [auto|right; apply elem_of_cons; auto].
Qed.

Lemma serve_registered (name : string) (rs : list request) (s : db) :
  registered name s → registered name (serve rs s).
Proof.
  apply (serve_keeps (registered name)). intros r s0.
  apply (changes_registered name r), route_changes.
Qed.

Lemma serve_signed_up (rs : list request) (s : db) :
  signed_up s → signed_up (serve rs s).
Proof.
  apply (serve_keeps signed_up). intros r s0.
  apply (changes_signed_up r), route_changes.
Qed.

Lemma serve_authored (rs : list request) (s : db) :
  authored s → authored (serve rs s).
Proof.
  apply (serve_keeps authored). intros r s0.
  apply (changes_authored r), route_changes.
Qed.

Lemma avatar_rules_agree (s : db) (q : option value) :
  signed_up s →
  avatar_or_null (find (matches "username" q) (users s))
  = avatar_as_specified (find (matches "username" q) (users s)).
Proof.
  intros Hs. destruct (find _ (users s)) as [u|] eqn:Hfind; [|done].
  apply find_some in Hfind as [Hin%list_elem_of_In _].
  destruct (Hs u Hin) as (name & a & _ & Ha & Hne & _).
  simpl. rewrite Ha. simpl. by rewrite bool_decide_eq_false_2.
Qed.

Lemma validate_keys_all (sch : schema) (o : list (string * json)) :
  (∀ k ks, (k, ks) ∈ sch → validate_key k ks (assoc k o) = None) →
  validate_keys sch o = None.
Proof.
  induction sch as [|[k ks] sch IH]; intros Hall; simpl; [done|].
  rewrite Hall by (apply elem_of_cons; auto).
  apply IH. intros k' ks' Hin. apply Hall, elem_of_cons. auto.
Qed.

Lemma put_tweets_204 (id : string) (b : body) (s s' : db) (p : payload) :
  put_tweets id b s = (Return (mkResponse 204 p), s') →
  ∃ o l1 d l2,
    validate tweetSchema b = None ∧
    ObjectId_of_string id = Some o ∧
    first_with_id o (tweets s) l1 d l2 ∧
    d !! "username" = Some (VStr (get_string b "username")) ∧
    s' = mkDb (users s)
           (l1 ++ <["tweet" := VStr (get_string b "tweet")]> d :: l2).
Proof.
  intros Hput.
  destruct (validate tweetSchema b) as [e|] eqn:Hv;
    [|destruct (ObjectId_of_string id) as [o|] eqn:Hid;
      [destruct (find (matches "_id" (Some (VOid o))) (tweets s))
         as [d|] eqn:Hfind|]].
  2: {
    destruct (find_first_with_id _ _ _ Hfind) as (l1 & l2 & Hfirst).
    rewrite (put_tweets_found _ _ _ _ _ _ _ Hv Hid Hfirst) in Hput.
    repeat case_decide; try done. injection Hput as _ <-.
    by exists o, l1, d, l2. }
  all: destruct (put_tweets_early id b s) as (code & p' & Heq & Hcode);
    [first [by left; rewrite Hv|by right; left|by right; right; exists o]|];
    rewrite Heq in Hput; injection Hput as Hc _ _; lia.
Qed.

Lemma unique_rest_unmatched (o : ObjectId) (l1 l2 : list document)
    (d : document) :
  (length (filter (λ x, matches "_id" (Some (VOid o)) x = true)
             (l1 ++ d :: l2)) ≤ 1)%nat →
  matches "_id" (Some (VOid o)) d = true →
  ∀ x, x ∈ l2 → matches "_id" (Some (VOid o)) x = false.
Proof.
  rewrite filter_app, length_app. intros Hlen Hd x Hx.
  rewrite filter_cons_True in Hlen by done. simpl in Hlen.
  destruct (filter _ l2) as [|y k] eqn:Hf; [|simpl in Hlen; lia].
  destruct (matches "_id" (Some (VOid o)) x) eqn:Hm; [|done].
  by destruct (filter_nil_not_elem_of _ _ _ Hf Hm).
Qed.

Lemma listing_as_specified (s : db) :
  signed_up s → lists_tweets avatar_as_specified s (get_tweets s).
Proof.
  intros Hs. rewrite get_tweets_runs.
  exists (reverse (listed avatar_or_null (users s) <$> tweets s)).
  split_and!; [done|by rewrite length_reverse, length_fmap|].
  intros i tweet Hi. rewrite (listing_lookup _ _ _ _ _ Hi).
  unfold listed. by rewrite avatar_rules_agree.
Qed.

Lemma listed_avatar_uri (s : db) (entries : list (gmap string (option value)))
    (e : gmap string (option value)) :
  signed_up s → authored s →
  reply (get_tweets s) = Some (mkResponse 200 (Json entries)) →
  e ∈ entries →
  ∃ a, e !! "avatar" = Some (Some (VStr a)) ∧ is_uri a = true.
Proof.
  intros Hs Ha. rewrite get_tweets_runs. unfold reply. simpl. intros [= <-].
  intros (t & -> & Ht)%elem_of_reverse%list_elem_of_fmap.
  destruct (Ha t Ht) as (name & u & Hname & Hin & Hu).
  destruct (find_elem_Some (matches "username" (t !! "username"))
              (users s) u) as (u' & Hfind & Hin' & _);
    [done|by rewrite Hname; apply matches_str|].
  destruct (Hs u' Hin') as (_ & a & _ & Hav & Hne & Huri).
  exists a. split; [|done]. unfold listed.
  rewrite !lookup_insert_ne, lookup_singleton_eq, Hfind by done.
  simpl. rewrite Hav. simpl. by rewrite bool_decide_eq_false_2.
Qed.

(** ** The claims *)

(** C1 (as amended): for every store, GET /tweets answers 200 with one
    entry per stored tweet, most recently inserted first; an entry copies
    [_id], [username] and [tweet] from the stored tweet, and its [avatar] is
    the avatar of the first user document whose username matches the
    tweet's when that avatar is truthy, and null when there is no such
    document or its avatar is falsy.  The store is unchanged. *)
Theorem get_tweets_lists (s : db) :
  lists_tweets avatar_or_null s (get_tweets s).
Proof.
  rewrite get_tweets_runs.
  exists (reverse (listed avatar_or_null (users s) <$> tweets s)).
  split_and!; [done|by rewrite length_reverse, length_fmap|].
  intros i tweet Hi. by apply listing_lookup.
Qed.

(** C2: when the stored tweet with the path's identity has a username
    other than the one in a schema-valid body, PUT /tweets/:id answers 403
    and the store (the tweet and the whole tweets collection with it) is
    unchanged. *)
Theorem put_tweets_forbidden (s : db) (id : string) (o : ObjectId) (b : body)
    (d : document) :
  validate tweetSchema b = None →
  ObjectId_of_string id = Some o →
  find (matches "_id" (Some (VOid o))) (tweets s) = Some d →
  d !! "username" ≠ Some (VStr (get_string b "username")) →
  answers 403 s (put_tweets id b s).
Proof.
  intros Hv Hid (l1 & l2 & Hfirst)%find_first_with_id Hu.
  rewrite (put_tweets_found _ _ _ _ _ _ _ Hv Hid Hfirst).
  rewrite decide_False by done. by eexists.
Qed.

(** C3 (as amended): when the path id is malformed, or is well-formed but
    matches no stored tweet, DELETE /tweets/:id answers 404, and so does
    PUT /tweets/:id for every schema-valid body; the store is unchanged. *)
Theorem put_delete_not_found (s : db) (id : string) :
  ObjectId_of_string id = None ∨
  (∃ o, ObjectId_of_string id = Some o ∧
        find (matches "_id" (Some (VOid o))) (tweets s) = None) →
  answers 404 s (delete_tweets id s) ∧
  ∀ b, validate tweetSchema b = None → answers 404 s (put_tweets id b s).
Proof.
  intros [Hid|(o & Hid & Hfind)]; split; try intros b Hv; run;
    rewrite ?Hv, Hid; simpl; rewrite ?Hfind; by eexists.
Qed.

(** C4: when a user document with the username of a schema-valid body
    exists, POST /sign-up answers 409 and the store is unchanged; and
    serving any sequence of requests from a store with at most one user
    document per username leaves at most one per username. *)
Theorem sign_up_conflict (s : db) :
  (∀ fresh b,
     validate userSchema b = None →
     is_Some (find (matches "username" (Some (VStr (get_string b "username"))))
                (users s)) →
     sign_up fresh b s
     = (Return (mkResponse 409 (Text "Username already exists")), s)) ∧
  (unique_usernames s → ∀ rs, unique_usernames (serve rs s)).
Proof.
  split.
  - intros fresh b Hv [u Hu]. run. by rewrite Hv, Hu.
  - intros Hs rs. by apply serve_unique.
Qed.

(** C5: when the username of a schema-valid body matches no user
    document, POST /tweets answers 401 and inserts nothing: the store is
    unchanged. *)
Theorem post_tweets_unauthorized (s : db) (fresh : ObjectId) (b : body) :
  validate tweetSchema b = None →
  find (matches "username" (Some (VStr (get_string b "username")))) (users s)
  = None →
  answers 401 s (post_tweets fresh b s).
Proof.
  intros Hv Hfind. run. rewrite Hv. simpl. rewrite Hfind. by eexists.
Qed.

(** C6: when PUT /tweets/:id passes validation, finds the tweet and the
    usernames agree, it answers 304 if the body's text is the stored text
    and 204 with no body otherwise. *)
Theorem put_tweets_status (s : db) (id : string) (o : ObjectId) (b : body)
    (d : document) :
  validate tweetSchema b = None →
  ObjectId_of_string id = Some o →
  find (matches "_id" (Some (VOid o))) (tweets s) = Some d →
  d !! "username" = Some (VStr (get_string b "username")) →
  reply (put_tweets id b s)
  = Some (if decide (d !! "tweet" = Some (VStr (get_string b "tweet")))
          then mkResponse 304 (Text "Nenhuma modificação feita")
          else mkResponse 204 NoBody).
Proof.
  intros Hv Hid (l1 & l2 & Hfirst)%find_first_with_id Hu.
  rewrite (put_tweets_found _ _ _ _ _ _ _ Hv Hid Hfirst).
  rewrite decide_True by done. by case_decide.
Qed.

(** C7: a PUT /tweets/:id that answers 204 (or 304) has replaced the
    [tweet] field of the first document with the path's identity by the
    body's text and nothing else: every other field of that document (its
    [_id] and [username] among them), every other tweet document and its
    position, and the users collection are as before. *)
Theorem put_tweets_frame (s s' : db) (id : string) (b : body) (code : nat)
    (p : payload) :
  put_tweets id b s = (Return (mkResponse code p), s') →
  code = 204 ∨ code = 304 →
  ∃ o l1 d l2 d',
    ObjectId_of_string id = Some o ∧
    first_with_id o (tweets s) l1 d l2 ∧
    tweets s' = l1 ++ d' :: l2 ∧
    users s' = users s ∧
    d' !! "tweet" = Some (VStr (get_string b "tweet")) ∧
    d' !! "_id" = d !! "_id" ∧
    d' !! "username" = d !! "username" ∧
    ∀ k, k ≠ "tweet" → d' !! k = d !! k.
Proof.
  intros Hput Hcode.
  destruct (validate tweetSchema b) as [e|] eqn:Hv.
  { revert Hput. run. rewrite Hv. intros [= <- _ _]. lia. }
  destruct (ObjectId_of_string id) as [o|] eqn:Hid.
  2: { revert Hput. run. rewrite Hv, Hid. intros [= <- _ _]. lia. }
  destruct (find (matches "_id" (Some (VOid o))) (tweets s)) as [d|] eqn:Hfind.
  2: { revert Hput. run. rewrite Hv, Hid. simpl. rewrite Hfind.
       intros [= <- _ _]. lia. }
  destruct (find_first_with_id _ _ _ Hfind) as (l1 & l2 & Hfirst).
  rewrite (put_tweets_found _ _ _ _ _ _ _ Hv Hid Hfirst) in Hput.
  destruct (decide (d !! "username" = _)) as [Hu|Hu];
    [|injection Hput as <- _ _; lia].
  destruct (decide (d !! "tweet" = _)) as [Ht|Ht]; injection Hput as _ _ <-.
  - exists o, l1, d, l2, d. split_and!; try done. apply Hfirst.
  - exists o, l1, d, l2, (<["tweet" := VStr (get_string b "tweet")]> d).
    split_and!; try done.
    + apply lookup_insert_eq.
    + by rewrite lookup_insert_ne.
    + by rewrite lookup_insert_ne.
    + intros k Hk. by rewrite lookup_insert_ne.
Qed.

(** C8: when the path id is well-formed and matches a stored tweet,
    DELETE /tweets/:id answers 204 and removes that document (the first
    with that identity) and nothing else: the other tweets keep their order
    and the users collection is unchanged. *)
Theorem delete_tweets_removes (s : db) (id : string) (o : ObjectId)
    (d : document) :
  ObjectId_of_string id = Some o →
  find (matches "_id" (Some (VOid o))) (tweets s) = Some d →
  ∃ l1 l2,
    first_with_id o (tweets s) l1 d l2 ∧
    delete_tweets id s
    = (Return (mkResponse 204 NoBody), mkDb (users s) (l1 ++ l2)).
Proof.
  intros Hid Hfind.
  destruct (find_first_with_id _ _ _ Hfind) as (l1 & l2 & Hfirst).
  exists l1, l2. split; [done|].
  destruct (first_with_id_matches _ _ _ _ _ Hfirst) as [Hd Hl1].
  destruct Hfirst as (Htw & _ & _).
  run. rewrite Hid. simpl. rewrite Hfind. simpl.
  by rewrite Htw, (remove_first_split _ _ _ _ Hd Hl1).
Qed.

(** C9: when the avatar of the body is not a well-formed URI, or the
    username or the avatar is missing or not a string, POST /sign-up
    answers 422 with the schema's message and the store is unchanged. *)
Theorem sign_up_unprocessable (s : db) (fresh : ObjectId) (b : body) :
  (∃ a, field b "avatar" = Some (JStr a) ∧ is_uri a = false) ∨
  ¬ is_string (field b "username") ∨ ¬ is_string (field b "avatar") →
  ∃ e, sign_up fresh b s = (Return (mkResponse 422 (Message e)), s).
Proof.
  intros [e He]%validate_user_rejects. exists e. run. by rewrite He.
Qed.

(** C10: in GET /tweets, the entry of a tweet whose matching user document
    exists but has a missing, null, empty-string or otherwise falsy avatar
    carries [avatar: null]. *)
Theorem get_tweets_falsy_avatar (s : db) (i : nat) (tweet user : document) :
  tweets s !! i = Some tweet →
  find (matches "username" (tweet !! "username")) (users s) = Some user →
  user !! "avatar" = None ∨ user !! "avatar" = Some VNull ∨
  user !! "avatar" = Some (VStr "") ∨ truthy (user !! "avatar") = false →
  ∃ entries e,
    get_tweets s = (Return (mkResponse 200 (Json entries)), s) ∧
    entries !! (length (tweets s) - 1 - i) = Some e ∧
    e !! "avatar" = Some (Some VNull).
Proof.
  intros Hi Hfind Hfalsy. rewrite get_tweets_runs.
  exists (reverse (listed avatar_or_null (users s) <$> tweets s)),
    (listed avatar_or_null (users s) tweet).
  split_and!; [done|by apply listing_lookup|].
  unfold listed. rewrite Hfind.
  rewrite !lookup_insert_ne, lookup_singleton_eq by done. f_equal. simpl.
  assert (truthy (user !! "avatar") = false) as ->; [|done].
  by destruct Hfalsy as [->|[->|[->|?]]].
Qed.

(** ** Further properties of the routes *)

(** X1: POST /sign-up with a schema-valid body, a username no user
    document carries and a generated id no user document has answers 201
    and appends one document, holding that id and the body's username and
    avatar, to the users collection; the tweets are untouched. *)
Theorem sign_up_created (s : db) (fresh : ObjectId) (b : body) :
  validate userSchema b = None →
  find (matches "username" (Some (VStr (get_string b "username")))) (users s)
  = None →
  (∀ d, d ∈ users s → d !! "_id" ≠ Some (VOid fresh)) →
  sign_up fresh b s
  = (Return (mkResponse 201 (Text "User logged in successfully")),
     mkDb (users s ++ [ {[ "_id" := VOid fresh;
                           "username" := VStr (get_string b "username");
                           "avatar" := VStr (get_string b "avatar") ]} ])
       (tweets s)).
Proof.
  intros Hv Hfind Hfresh.
  by rewrite sign_up_runs, Hv, Hfind, (existsb_id_false _ _ Hfresh).
Qed.

(** X2: POST /tweets with a schema-valid body, a username some user
    document carries and a generated id no tweet has answers 201 and
    appends one document, holding that id and the body's username and text,
    to the tweets collection; the users are untouched. *)
Theorem post_tweets_created (s : db) (fresh : ObjectId) (b : body) :
  validate tweetSchema b = None →
  registered (get_string b "username") s →
  (∀ d, d ∈ tweets s → d !! "_id" ≠ Some (VOid fresh)) →
  post_tweets fresh b s
  = (Return (mkResponse 201 (Text "Tweet criado com sucesso")),
     mkDb (users s)
       (tweets s ++ [ {[ "_id" := VOid fresh;
                         "username" := VStr (get_string b "username");
                         "tweet" := VStr (get_string b "tweet") ]} ])).
Proof.
  intros Hv [u Hfind] Hfresh.
  by rewrite post_tweets_runs, Hv, Hfind, (existsb_id_false _ _ Hfresh).
Qed.

(** X3: a request answered with any status other than 201 and 204 has
    left the store exactly as it was. *)
Theorem failed_request_no_effect (r : request) (s : db) (resp : response) :
  reply (route r s) = Some resp →
  status resp ≠ 201 → status resp ≠ 204 →
  (route r s).2 = s.
Proof.
  destruct (route_outcome r s) as (resp' & Hroute & _ & _ & Hsame).
  unfold reply. rewrite Hroute. simpl. intros [= <-]. apply Hsame.
Qed.

(** X4: POST /tweets and PUT /tweets/:id answer 422 with the schema's
    message for every body the tweet schema rejects, whatever the id and
    the store, and leave the store as it was. *)
Theorem invalid_tweet_body_422 (s : db) (fresh : ObjectId) (id : string)
    (b : body) (e : joi_error) :
  validate tweetSchema b = Some e →
  post_tweets fresh b s = (Return (mkResponse 422 (Message e)), s) ∧
  put_tweets id b s = (Return (mkResponse 422 (Message e)), s).
Proof.
  intros Hv. split; [by rewrite post_tweets_runs, Hv|].
  run. by rewrite Hv.
Qed.

(** X5: a schema accepts a body exactly when the body is an object that
    holds a non-empty string under every key of the schema (a URI where the
    schema asks for one) and holds no other key. *)
Theorem validate_accepts_iff (sch : schema) (b : body) :
  validate sch b = None ↔ ∃ o, b = BObject o ∧ accepted sch o.
Proof.
  split.
  - intros Hv. destruct b as [o|l]; [|done]. exists o. split; [done|]. split.
    + intros k ks Hin.
      destruct (validate_ok_field _ _ k ks Hv Hin) as (str & Hf & Hne & _ & Huri).
      by exists str.
    + intros k v Hin. simpl in Hv.
      destruct (validate_keys sch o); [done|].
      destruct (find _ o) eqn:Hfind; [done|].
      apply list_elem_of_In in Hin.
      pose proof (find_none _ _ Hfind _ Hin) as Hk. simpl in Hk.
      apply negb_false_iff in Hk. by apply bool_decide_eq_true in Hk.
  - intros (o & -> & Hkeys & Hknown). simpl.
    rewrite validate_keys_all.
    + rewrite find_all_false; [done|]. intros [k v] Hin. simpl.
      apply negb_false_iff, bool_decide_eq_true. by eapply Hknown.
    + intros k ks Hin. destruct (Hkeys k ks Hin) as (str & -> & Hne & Huri).
      simpl. rewrite decide_False by done.
      destruct ks; [done|]. by rewrite Huri.
Qed.

(** X6: every request is answered (no exception leaves a handler), and
    with one of the status codes of its route; so PUT and DELETE never
    answer 500. *)
Theorem route_answers (r : request) (s : db) :
  ∃ resp, reply (route r s) = Some resp ∧ status resp ∈ codes r.
Proof.
  destruct (route_outcome r s) as (resp & Hroute & Hcode & _).
  exists resp. unfold reply. by rewrite Hroute.
Qed.

(** X7: a request does one of five things to the store: nothing, append
    one user document (a sign-up for a free username), append one tweet (by
    a registered username), set the text of the first tweet with the path's
    id (when the usernames agree), or remove the first tweet with the
    path's id. *)
Theorem request_effect (r : request) (s : db) : changes r s (route r s).2.
Proof. apply route_changes. Qed.

(** X8: no sequence of requests removes, reorders or alters a user
    document: the users collection before is a prefix of the one after. *)
Theorem users_only_grow (rs : list request) (s : db) :
  users s `prefix_of` users (serve rs s).
Proof.
  revert s. induction rs as [|r rs IH]; intros s; simpl; [done|].
  etrans; [|apply IH]. apply (changes_users r), route_changes.
Qed.

(** X9: once POST /sign-up has answered 201 for a username, every later
    sign-up with that username is answered 409 and changes nothing,
    whatever requests were served in between. *)
Theorem sign_up_once (s s' : db) (fresh : ObjectId) (b : body) (p : payload)
    (rs : list request) (fresh' : ObjectId) (b' : body) :
  sign_up fresh b s = (Return (mkResponse 201 p), s') →
  validate userSchema b' = None →
  get_string b' "username" = get_string b "username" →
  sign_up fresh' b' (serve rs s')
  = (Return (mkResponse 409 (Text "Username already exists")), serve rs s').
Proof.
  intros Hfirst Hv' Hname.
  assert (registered (get_string b "username") s') as Hreg.
  { rewrite sign_up_runs in Hfirst.
    destruct (validate userSchema b); [done|].
    destruct (find _ (users s)) eqn:Hfind; [done|].
    destruct (existsb _ (users s)); [done|]. injection Hfirst as _ <-.
    unfold registered. simpl.
    destruct (find_elem_Some
                (matches "username" (Some (VStr (get_string b "username"))))
                (users s ++ [new_user fresh b]) (new_user fresh b))
      as (d & -> & _); [apply elem_of_app; right; by apply list_elem_of_singleton
                        |by apply matches_str|done]. }
  destruct (serve_registered _ rs _ Hreg) as [u Hu].
  by rewrite sign_up_runs, Hv', Hname, Hu.
Qed.

(** X10: a username some user document carries stays registered: after any
    sequence of requests POST /tweets under it is not answered 401. *)
Theorem registered_can_tweet (s : db) (name : string) (rs : list request)
    (fresh : ObjectId) (b : body) (resp : response) :
  registered name s →
  validate tweetSchema b = None →
  get_string b "username" = name →
  reply (post_tweets fresh b (serve rs s)) = Some resp →
  status resp = 201 ∨ status resp = 500.
Proof.
  intros Hreg Hv Hname.
  destruct (serve_registered _ rs _ Hreg) as [u Hu].
  rewrite post_tweets_runs, Hv, Hname, Hu. unfold reply.
  destruct (existsb _ _); simpl; intros [= <-]; auto.
Qed.

(** X11: if every tweet carries the username of some user document, the
    same holds after any sequence of requests. *)
Theorem authored_kept (s : db) (rs : list request) :
  authored s → authored (serve rs s).
Proof. apply serve_authored. Qed.

(** X12: if every user document holds a string username and a non-empty
    URI avatar, as sign-up stores them, then so it is after any sequence of
    requests, and GET /tweets then lists each tweet with the very avatar of
    the first matching user document, null only when there is none. *)
Theorem signed_up_listing (s : db) (rs : list request) :
  signed_up s →
  signed_up (serve rs s) ∧
  lists_tweets avatar_as_specified (serve rs s) (get_tweets (serve rs s)).
Proof.
  intros Hs%(serve_signed_up rs). split; [done|].
  by apply listing_as_specified.
Qed.

(** X13: on a store whose users are as sign-up stores them and whose
    tweets carry usernames of user documents, after any sequence of
    requests every entry GET /tweets lists has a URI string as avatar,
    never null. *)
Theorem listing_avatars_are_uris (s : db) (rs : list request)
    (entries : list (gmap string (option value)))
    (e : gmap string (option value)) :
  signed_up s → authored s →
  reply (get_tweets (serve rs s)) = Some (mkResponse 200 (Json entries)) →
  e ∈ entries →
  ∃ a, e !! "avatar" = Some (Some (VStr a)) ∧ is_uri a = true.
Proof.
  intros Hs%(serve_signed_up rs) Ha%(serve_authored rs).
  by apply listed_avatar_uri.
Qed.

(** X14: repeating a PUT /tweets/:id that answered 204 is answered 304
    and changes nothing. *)
Theorem put_tweets_twice (s s' : db) (id : string) (b : body) (p : payload) :
  put_tweets id b s = (Return (mkResponse 204 p), s') →
  put_tweets id b s'
  = (Return (mkResponse 304 (Text "Nenhuma modificação feita")), s').
Proof.
  intros (o & l1 & d & l2 & Hv & Hid & (Htw & Hd & Hl1) & Hu & ->)%put_tweets_204.
  rewrite (put_tweets_found _ id o b l1 l2
             (<["tweet" := VStr (get_string b "tweet")]> d) Hv Hid).
  - rewrite decide_True by (by rewrite lookup_insert_ne).
    by rewrite decide_True by apply lookup_insert_eq.
  - split_and!; [done|by rewrite lookup_insert_ne|done].
Qed.

(** X15: after a POST /tweets answered 201, GET /tweets lists the new
    tweet first, with the generated id and the body's username and text,
    and after it the listing as it was before. *)
Theorem post_then_get (s s' : db) (fresh : ObjectId) (b : body) (p : payload) :
  post_tweets fresh b s = (Return (mkResponse 201 p), s') →
  ∃ e older,
    get_tweets s = (Return (mkResponse 200 (Json older)), s) ∧
    get_tweets s' = (Return (mkResponse 200 (Json (e :: older))), s') ∧
    e !! "_id" = Some (Some (VOid fresh)) ∧
    e !! "username" = Some (Some (VStr (get_string b "username"))) ∧
    e !! "tweet" = Some (Some (VStr (get_string b "tweet"))).
Proof.
  rewrite post_tweets_runs.
  destruct (validate tweetSchema b); [done|].
  destruct (find _ (users s)); [|done].
  destruct (existsb _ (tweets s)); [done|]. intros [= _ <-].
  rewrite !get_tweets_runs. simpl.
  replace (listed avatar_or_null (users s) <$> tweets s ++ [new_tweet fresh b])
    with ((listed avatar_or_null (users s) <$> tweets s)
          ++ [listed avatar_or_null (users s) (new_tweet fresh b)])
    by (by rewrite fmap_app).
  rewrite reverse_snoc.
  eexists _, _. split_and!; [done|done|..]; unfold listed, new_tweet.
  - by rewrite lookup_insert_eq, lookup_insert_eq.
  - rewrite lookup_insert_ne, lookup_insert_eq by done.
    by rewrite lookup_insert_ne, lookup_insert_eq.
  - rewrite !lookup_insert_ne, lookup_insert_eq by done.
    by rewrite !lookup_insert_ne, lookup_singleton_eq.
Qed.

(** X16: when no two tweets share an [_id], the id of a DELETE /tweets/:id
    answered 204 is gone: deleting it again, or updating it with a
    schema-valid body, is answered 404 and changes nothing. *)
Theorem delete_tweets_twice (s s' : db) (id : string) (p : payload) :
  delete_tweets id s = (Return (mkResponse 204 p), s') →
  unique_tweet_ids s →
  answers 404 s' (delete_tweets id s') ∧
  ∀ b, validate tweetSchema b = None → answers 404 s' (put_tweets id b s').
Proof.
  rewrite delete_tweets_runs.
  destruct (ObjectId_of_string id) as [o|] eqn:Hid; [|done].
  destruct (find _ (tweets s)) as [d|] eqn:Hfind; [|done].
  intros [= _ <-] Huniq.
  destruct (find_first_with_id _ _ _ Hfind) as (l1 & l2 & Hfirst).
  destruct (first_with_id_matches _ _ _ _ _ Hfirst) as [Hd Hl1].
  destruct Hfirst as (Htw & _ & _). specialize (Huniq o). rewrite Htw in *.
  rewrite (remove_first_split _ _ _ _ Hd Hl1).
  pose proof (unique_rest_unmatched _ _ _ _ Huniq Hd) as Hl2.
  assert (find (matches "_id" (Some (VOid o))) (l1 ++ l2) = None) as Hgone.
  { apply find_all_false. intros x [Hx|Hx]%elem_of_app; auto. }
  split.
  - rewrite delete_tweets_runs, Hid. simpl. rewrite Hgone. by eexists.
  - intros b Hv. run. rewrite Hv, Hid. simpl. rewrite Hgone. by eexists.
Qed.

(** X17: on every store the requests build from the empty one, GET
    /tweets lists each tweet with the avatar of the first user document
    carrying the tweet's username, and that avatar is a URI string: the
    listing holds no null avatar. *)
Theorem served_listing (rs : list request) :
  let s := serve rs (mkDb [] []) in
  lists_tweets avatar_as_specified s (get_tweets s) ∧
  ∀ entries e,
    reply (get_tweets s) = Some (mkResponse 200 (Json entries)) →
    e ∈ entries →
    ∃ a, e !! "avatar" = Some (Some (VStr a)) ∧ is_uri a = true.
Proof.
  assert (signed_up (serve rs (mkDb [] []))) as Hs.
  { apply serve_signed_up. by intros u ?%elem_of_nil. }
  assert (authored (serve rs (mkDb [] []))) as Ha.
  { apply serve_authored. by intros t ?%elem_of_nil. }
  split; [by apply listing_as_specified|].
  intros entries e. by apply listed_avatar_uri.
Qed.

End Routes.

(** ** The claims on concrete requests *)

(** The scenario of the specification: a sign-up, the same sign-up again,
    a tweet of that user, the listing. *)
Example sign_up_twice_then_tweet :
  let r1 := POST_sign_up 1%N (user_body "a" "https://x/y.png") in
  let r2 := POST_sign_up 2%N (user_body "a" "https://x/y.png") in
  let r3 := POST_tweets 16%N (tweet_body "a" "hi") in
  let after rs := serve http_url hex24 rs (mkDb [] []) in
  let answer r rs := reply (route http_url hex24 r (after rs)) in
  status <$> answer r1 [] = Some 201 ∧
  status <$> answer r2 [r1] = Some 409 ∧
  status <$> answer r3 [r1; r2] = Some 201 ∧
  answer GET_tweets [r1; r2; r3]
  = Some (mkResponse 200
      (Json [ {[ "_id" := Some (VOid 16%N);
                 "username" := Some (VStr "a");
                 "tweet" := Some (VStr "hi");
                 "avatar" := Some (VStr "https://x/y.png") ]} ])).
Proof. vm_compute. repeat split. Qed.

(** C1 as the specification words it fails: bob's user document has the
    empty string as avatar, and the entry of his tweet carries null, not
    that string. *)
Lemma get_tweets_not_as_specified :
  ¬ lists_tweets avatar_as_specified (mkDb [faceless] [bob_tweet])
      (get_tweets (mkDb [faceless] [bob_tweet])).
Proof.
  intros (entries & Hget & _ & Hentries).
  rewrite get_tweets_runs in Hget. injection Hget as <-.
  specialize (Hentries 0 bob_tweet eq_refl).
  apply (f_equal (λ e, e ≫= (.!! "avatar"))) in Hentries.
  vm_compute in Hentries. discriminate Hentries.
Qed.

Lemma put_tweets_forbidden_witness :
  answers 403 one_tweet
    (put_tweets http_url hex24 hello_id (tweet_body "mallory" "mine")
       one_tweet).
Proof.
  apply (put_tweets_forbidden http_url hex24 one_tweet hello_id 16%N
           (tweet_body "mallory" "mine") hello).
  - vm_compute. reflexivity.
  - vm_compute. reflexivity.
  - vm_compute. reflexivity.
  - vm_compute. discriminate.
Defined.

(** C3 as the specification words it fails for PUT: with a body that does
    not validate, a malformed id is answered 422. *)
Lemma put_tweets_malformed_id_422 :
  hex24 "not-an-id" = None ∧
  put_tweets http_url hex24 "not-an-id" (BObject []) one_tweet
  = (Return (mkResponse 422 (Message (any_required "username"))), one_tweet) ∧
  ¬ answers 404 one_tweet
      (put_tweets http_url hex24 "not-an-id" (BObject []) one_tweet).
Proof.
  split_and!; [vm_compute; reflexivity..|].
  intros [p Hp]. vm_compute in Hp. discriminate Hp.
Qed.

Lemma put_delete_not_found_witness :
  answers 404 one_tweet (delete_tweets hex24 "not-an-id" one_tweet) ∧
  answers 404 one_tweet
    (put_tweets http_url hex24 "not-an-id" (tweet_body "alice" "hey")
       one_tweet).
Proof.
  destruct (put_delete_not_found http_url hex24 one_tweet "not-an-id")
    as [Hdelete Hput].
  - left. vm_compute. reflexivity.
  - split; [exact Hdelete|]. apply Hput. vm_compute. reflexivity.
Defined.

Lemma sign_up_conflict_witness :
  sign_up http_url 3%N (user_body "alice" "http://z") one_tweet
  = (Return (mkResponse 409 (Text "Username already exists")), one_tweet) ∧
  unique_usernames
    (serve http_url hex24
       [POST_sign_up 3%N (user_body "alice" "http://z");
        POST_sign_up 4%N (user_body "alice" "http://w")]
       (mkDb [] [])).
Proof.
  split.
  - apply (proj1 (sign_up_conflict http_url hex24 one_tweet)).
    + vm_compute. reflexivity.
    + exists alice. vm_compute. reflexivity.
  - apply (proj2 (sign_up_conflict http_url hex24 (mkDb [] []))).
    intros name. simpl. lia.
Defined.

Lemma post_tweets_unauthorized_witness :
  answers 401 one_tweet
    (post_tweets http_url 18%N (tweet_body "carol" "hi") one_tweet).
Proof.
  apply (post_tweets_unauthorized http_url one_tweet 18%N
           (tweet_body "carol" "hi")).
  - vm_compute. reflexivity.
  - vm_compute. reflexivity.
Defined.

Lemma put_tweets_status_witness :
  reply (put_tweets http_url hex24 hello_id (tweet_body "alice" "hi")
           one_tweet)
  = Some (mkResponse 304 (Text "Nenhuma modificação feita")) ∧
  reply (put_tweets http_url hex24 hello_id (tweet_body "alice" "bye")
           one_tweet)
  = Some (mkResponse 204 NoBody).
Proof.
  split.
  - rewrite (put_tweets_status http_url hex24 one_tweet hello_id 16%N
               (tweet_body "alice" "hi") hello);
      vm_compute; reflexivity.
  - rewrite (put_tweets_status http_url hex24 one_tweet hello_id 16%N
               (tweet_body "alice" "bye") hello);
      vm_compute; reflexivity.
Defined.

Lemma put_tweets_frame_witness :
  ∃ o l1 d l2 d',
    hex24 hello_id = Some o ∧
    first_with_id o [hello] l1 d l2 ∧
    [<["tweet" := VStr "bye"]> hello] = l1 ++ d' :: l2 ∧
    [alice] = [alice] ∧
    d' !! "tweet" = Some (VStr "bye") ∧
    d' !! "_id" = d !! "_id" ∧
    d' !! "username" = d !! "username" ∧
    ∀ k, k ≠ "tweet" → d' !! k = d !! k.
Proof.
  apply (put_tweets_frame http_url hex24 one_tweet
           (mkDb [alice] [<["tweet" := VStr "bye"]> hello])
           hello_id (tweet_body "alice" "bye") 204 NoBody).
  - vm_compute. reflexivity.
  - left. reflexivity.
Defined.

Lemma delete_tweets_removes_witness :
  ∃ l1 l2,
    first_with_id 16%N [hello] l1 hello l2 ∧
    delete_tweets hex24 hello_id one_tweet
    = (Return (mkResponse 204 NoBody), mkDb [alice] (l1 ++ l2)).
Proof.
  apply (delete_tweets_removes hex24 one_tweet hello_id 16%N hello).
  - vm_compute. reflexivity.
  - vm_compute. reflexivity.
Defined.

Lemma sign_up_unprocessable_witness :
  ∃ e, sign_up http_url 3%N (user_body "dave" "not a uri") one_tweet
       = (Return (mkResponse 422 (Message e)), one_tweet).
Proof.
  apply (sign_up_unprocessable http_url one_tweet 3%N
           (user_body "dave" "not a uri")).
  left. exists "not a uri". split; vm_compute; reflexivity.
Defined.

Lemma get_tweets_falsy_avatar_witness :
  ∃ entries e,
    get_tweets (mkDb [faceless] [bob_tweet])
    = (Return (mkResponse 200 (Json entries)), mkDb [faceless] [bob_tweet]) ∧
    entries !! 0 = Some e ∧
    e !! "avatar" = Some (Some VNull).
Proof.
  apply (get_tweets_falsy_avatar (mkDb [faceless] [bob_tweet]) 0 bob_tweet
           faceless).
  - reflexivity.
  - vm_compute. reflexivity.
  - right. right. left. vm_compute. reflexivity.
Defined.

(** ** The further properties on concrete requests *)

Lemma one_tweet_signed_up : signed_up http_url one_tweet.
Proof.
  intros u ->%list_elem_of_singleton.
  exists "alice", "https://x/y.png". by vm_compute.
Qed.

Lemma one_tweet_authored : authored one_tweet.
Proof.
  intros t ->%list_elem_of_singleton. exists "alice", alice.
  split_and!; [by vm_compute|by apply list_elem_of_singleton|by vm_compute].
Qed.

Lemma one_tweet_unique_ids : unique_tweet_ids one_tweet.
Proof. intros o. etrans; [apply length_filter|done]. Qed.

Lemma sign_up_created_witness :
  sign_up http_url 3%N (user_body "carol" "http://c") one_tweet
  = (Return (mkResponse 201 (Text "User logged in successfully")),
     mkDb [alice;
           {[ "_id" := VOid 3%N; "username" := VStr "carol";
              "avatar" := VStr "http://c" ]}]
       [hello]).
Proof.
  apply (sign_up_created http_url one_tweet 3%N (user_body "carol" "http://c")).
  - vm_compute. reflexivity.
  - vm_compute. reflexivity.
  - intros d ->%list_elem_of_singleton. vm_compute. discriminate.
Defined.

Lemma post_tweets_created_witness :
  post_tweets http_url 18%N (tweet_body "alice" "again") one_tweet
  = (Return (mkResponse 201 (Text "Tweet criado com sucesso")),
     mkDb [alice]
       [hello;
        {[ "_id" := VOid 18%N; "username" := VStr "alice";
           "tweet" := VStr "again" ]}]).
Proof.
  apply (post_tweets_created http_url one_tweet 18%N
           (tweet_body "alice" "again")).
  - vm_compute. reflexivity.
  - exists alice. vm_compute. reflexivity.
  - intros d ->%list_elem_of_singleton. vm_compute. discriminate.
Defined.

Lemma failed_request_no_effect_witness :
  (route http_url hex24 (PUT_tweets hello_id (tweet_body "mallory" "mine"))
     one_tweet).2
  = one_tweet.
Proof.
  apply (failed_request_no_effect http_url hex24
           (PUT_tweets hello_id (tweet_body "mallory" "mine")) one_tweet
           (mkResponse 403
              (Text "Ação não permitida: o username não corresponde ao tweet original"))).
  - vm_compute. reflexivity.
  - simpl. lia.
  - simpl. lia.
Defined.

Lemma invalid_tweet_body_422_witness :
  post_tweets http_url 18%N (BObject [("username", JStr "alice")]) one_tweet
  = (Return (mkResponse 422 (Message (any_required "tweet"))), one_tweet) ∧
  put_tweets http_url hex24 "not-an-id" (BObject [("username", JStr "alice")])
    one_tweet
  = (Return (mkResponse 422 (Message (any_required "tweet"))), one_tweet).
Proof.
  apply (invalid_tweet_body_422 http_url hex24 one_tweet 18%N "not-an-id"
           (BObject [("username", JStr "alice")]) (any_required "tweet")).
  vm_compute. reflexivity.
Defined.

Lemma sign_up_once_witness :
  let s' := (sign_up http_url 3%N (user_body "carol" "http://c") one_tweet).2 in
  let later := serve http_url hex24 [GET_tweets; DELETE_tweets hello_id] s' in
  sign_up http_url 9%N (user_body "carol" "http://d") later
  = (Return (mkResponse 409 (Text "Username already exists")), later).
Proof.
  apply (sign_up_once http_url hex24 one_tweet
           (sign_up http_url 3%N (user_body "carol" "http://c") one_tweet).2
           3%N (user_body "carol" "http://c")
           (Text "User logged in successfully")
           [GET_tweets; DELETE_tweets hello_id]
           9%N (user_body "carol" "http://d")).
  - vm_compute. reflexivity.
  - vm_compute. reflexivity.
  - vm_compute. reflexivity.
Defined.

Lemma registered_can_tweet_witness :
  status (mkResponse 201 (Text "Tweet criado com sucesso")) = 201 ∨
  status (mkResponse 201 (Text "Tweet criado com sucesso")) = 500.
Proof.
  apply (registered_can_tweet http_url hex24 one_tweet "alice"
           [DELETE_tweets hello_id] 18%N (tweet_body "alice" "back")).
  - exists alice. vm_compute. reflexivity.
  - vm_compute. reflexivity.
  - vm_compute. reflexivity.
  - vm_compute. reflexivity.
Defined.

Lemma authored_kept_witness :
  authored
    (serve http_url hex24
       [POST_tweets 18%N (tweet_body "alice" "again");
        PUT_tweets hello_id (tweet_body "alice" "bye")]
       one_tweet).
Proof.
  apply (authored_kept http_url hex24 one_tweet). apply one_tweet_authored.
Defined.

Lemma signed_up_listing_witness :
  let later :=
    serve http_url hex24
      [POST_sign_up 3%N (user_body "carol" "http://c");
       POST_tweets 18%N (tweet_body "carol" "hi")]
      one_tweet in
  signed_up http_url later ∧
  lists_tweets avatar_as_specified later (get_tweets later).
Proof.
  apply (signed_up_listing http_url hex24 one_tweet). apply one_tweet_signed_up.
Defined.

Lemma listing_avatars_are_uris_witness :
  ∃ a, listed avatar_or_null [alice] hello !! "avatar" = Some (Some (VStr a)) ∧
       http_url a = true.
Proof.
  apply (listing_avatars_are_uris http_url hex24 one_tweet []
           [listed avatar_or_null [alice] hello]).
  - apply one_tweet_signed_up.
  - apply one_tweet_authored.
  - vm_compute. reflexivity.
  - apply list_elem_of_singleton. reflexivity.
Defined.

Lemma put_tweets_twice_witness :
  let s' := mkDb [alice] [<["tweet" := VStr "bye"]> hello] in
  put_tweets http_url hex24 hello_id (tweet_body "alice" "bye") s'
  = (Return (mkResponse 304 (Text "Nenhuma modificação feita")), s').
Proof.
  apply (put_tweets_twice http_url hex24 one_tweet
           (mkDb [alice] [<["tweet" := VStr "bye"]> hello])
           hello_id (tweet_body "alice" "bye") NoBody).
  vm_compute. reflexivity.
Defined.

Lemma post_then_get_witness :
  let s' :=
    (post_tweets http_url 18%N (tweet_body "alice" "again") one_tweet).2 in
  ∃ e older,
    get_tweets one_tweet = (Return (mkResponse 200 (Json older)), one_tweet) ∧
    get_tweets s' = (Return (mkResponse 200 (Json (e :: older))), s') ∧
    e !! "_id" = Some (Some (VOid 18%N)) ∧
    e !! "username" = Some (Some (VStr "alice")) ∧
    e !! "tweet" = Some (Some (VStr "again")).
Proof.
  apply (post_then_get http_url one_tweet
           (post_tweets http_url 18%N (tweet_body "alice" "again") one_tweet).2
           18%N (tweet_body "alice" "again")
           (Text "Tweet criado com sucesso")).
  vm_compute. reflexivity.
Defined.

Lemma delete_tweets_twice_witness :
  answers 404 (mkDb [alice] []) (delete_tweets hex24 hello_id (mkDb [alice] [])) ∧
  ∀ b, validate http_url tweetSchema b = None →
       answers 404 (mkDb [alice] [])
         (put_tweets http_url hex24 hello_id b (mkDb [alice] [])).
Proof.
  apply (delete_tweets_twice http_url hex24 one_tweet (mkDb [alice] [])
           hello_id NoBody).
  - vm_compute. reflexivity.
  - apply one_tweet_unique_ids.
Defined.
